(** * Redirect rewriter of [app/views/v1/routing.js]

    The module builds a sub-router with one middleware and two POST
    handlers.  The middleware replaces [res.redirect] by a closure that
    prefixes path-absolute targets with [req.baseUrl] and then calls the
    function it replaced.

    Embedding.  Request and response objects live in a store and are
    named by references, because the closure keeps a reference to [req]
    (and reads [req.baseUrl] when it is called, not when it is created)
    and because the middleware mutates [res] in place.  Function values
    that can sit in [res.redirect] are defunctionalised: either the host
    framework's redirect primitive, or the closure of line 8 together
    with the two variables it captures.  Effects are threaded through a
    state-and-exception monad; a ghost log records every call that
    reaches the host primitive.

    JavaScript strings are modelled by [string]; [startsWith('/')] looks
    at the first character only and ['/'] is a single code unit in either
    representation. *)

From Stdlib Require Import Ascii.
From stdpp Require Import gmap strings list.

Local Open Scope string_scope.
Local Open Scope list_scope.

(** References to heap-allocated JavaScript objects. *)
Definition loc := positive.

(** Function values reachable from [res.redirect]. *)
Inductive fn : Type :=
| HostRedirect
    (* the redirect primitive the host framework put on the response *)
| RedirectWrapper (req : loc) (originalRedirect : fn).
    (* [function (url) { ... }] of line 8, closed over [req] and
       [originalRedirect] *)

Global Instance fn_eq_dec : EqDecision fn.
Proof. solve_decision. Defined.

(** [url.startsWith(searchString)] *)
Definition startsWith (s searchString : string) : bool :=
  String.prefix searchString s.

Lemma startsWith_append (x s t : string) :
  startsWith s x = true -> startsWith (s +:+ t) x = true.
Proof.
  unfold startsWith. revert s.
  induction x as [|a x IH]; intros s H.
  - by destruct (s +:+ t).
  - destruct s as [|b s]; [discriminate H|].
    change (String b s +:+ t) with (String b (s +:+ t)).
    simpl String.prefix in *.
    destruct (Ascii.ascii_dec a b); [by apply IH | discriminate H].
Qed.

Lemma startsWith_slash_cons (c : Ascii.ascii) (s : string) :
  startsWith (String c s) "/" = true <-> c = "/"%char.
Proof.
  unfold startsWith. cbn [String.prefix].
  destruct (Ascii.ascii_dec "/" c) as [<-|Hne].
  - split; [done|]. by destruct s.
  - split; [intros H; discriminate H | intros Hc; by destruct Hne].
Qed.

(** ASCII letters folded to lower case; other characters as they
    are. *)
Definition ascii_lower (c : ascii) : ascii :=
  let n := N_of_ascii c in
  if ((65 <=? n) && (n <=? 90))%N then ascii_of_N (n + 32) else c.

(** Equality of strings up to the case of ASCII letters. *)
Fixpoint eqb_ci (a b : string) : bool :=
  match a, b with
  | EmptyString, EmptyString => true
  | String x a', String y b' =>
      Ascii.eqb (ascii_lower x) (ascii_lower y) && eqb_ci a' b'
  | _, _ => false
  end.

(** Modelled from the spec: how the host router decides that the path
    of a request is the one a layer was registered with.  The router
    is not under [src/], and the spec names the routes by their
    literal paths only.  For a route given as a literal string the
    host router's default is: letters compared without regard to
    case, and one trailing slash accepted. *)
Definition route_matches (route path : string) : bool :=
  eqb_ci path route || eqb_ci path (route +:+ "/").

Section Routing.

(** What the host framework provides and this module never inspects:
    the values of the other object properties, the framework's own
    state (socket, headers already sent, ...), the value a redirect
    returns and the exceptions it may throw. *)
Variables (value host result error : Type).

Record request : Type := Request {
  baseUrl : string;
  req_props : gmap string value
}.

Record response : Type := Response {
  redirect : fn;
  res_props : gmap string value
}.

Record heap : Type := Heap {
  requests : gmap loc request;
  responses : gmap loc response;
  framework : host
}.

(** A JavaScript completion: normal return or throw.  [Stuck] is the
    model's answer to a reference that names no object; a running
    program never produces it. *)
Inductive outcome (A : Type) : Type :=
| Returned (a : A)
| Thrown (e : error)
| Stuck.
Arguments Returned {A} a.
Arguments Thrown {A} e.
Arguments Stuck {A}.

(** The store plus the ghost log of calls to the host primitive, each
    with its receiver and its target. *)
Record state : Type := State {
  store : heap;
  calls : list (loc * string)
}.

Definition M (A : Type) : Type := state -> outcome A * state.

Definition ret {A} (a : A) : M A := fun s => (Returned a, s).

Definition bind {A B} (m : M A) (k : A -> M B) : M B :=
  fun s =>
    match m s with
    | (Returned a, s') => k a s'
    | (Thrown e, s') => (Thrown e, s')
    | (Stuck, s') => (Stuck, s')
    end.

Notation "x <- m ;; k" := (bind m (fun x => k))
  (at level 100, m at next level, right associativity).
Notation "m ;;; k" := (bind m (fun _ => k))
  (at level 100, right associativity).

(** The host framework's redirect primitive, called with receiver
    [this] and one string. *)
Variable host_redirect : loc -> string -> heap -> outcome result * heap.

Definition host_call (this : loc) (url : string) : M result :=
  fun s =>
    let '(o, h) := host_redirect this url (store s) in
    (o, {| store := h; calls := calls s ++ [(this, url)] |}).

(** [req.baseUrl] *)
Definition get_baseUrl (req : loc) : M string :=
  fun s =>
    match requests (store s) !! req with
    | Some rq => (Returned (baseUrl rq), s)
    | None => (Stuck, s)
    end.

(** [res.redirect] read as a property *)
Definition get_redirect (res : loc) : M fn :=
  fun s =>
    match responses (store s) !! res with
    | Some rs => (Returned (redirect rs), s)
    | None => (Stuck, s)
    end.

(** [res.redirect = f] *)
Definition set_redirect (res : loc) (f : fn) : M unit :=
  fun s =>
    match responses (store s) !! res with
    | Some rs =>
        (Returned tt,
         {| store :=
              {| requests := requests (store s);
                 responses :=
                   <[res := {| redirect := f; res_props := res_props rs |}]>
                     (responses (store s));
                 framework := framework (store s) |};
            calls := calls s |})
    | None => (Stuck, s)
    end.

(** [f.call(this, url)].  The second case is the body of the closure,
    lines 9 to 12. *)
Fixpoint call (f : fn) (this : loc) (url : string) : M result :=
  match f with
  | HostRedirect => host_call this url
  | RedirectWrapper req originalRedirect =>
      url <- (if startsWith url "/"
              then (b <- get_baseUrl req ;; ret (b +:+ url))
              else ret url) ;;
      call originalRedirect this url
  end.

(** [res.redirect(url)]: a method call, so the receiver is [res]. *)
Definition res_redirect (res : loc) (url : string) : M result :=
  f <- get_redirect res ;;
  call f res url.

(** The middleware of lines 6 to 15. *)
Definition middleware (req res : loc) (next : M unit) : M unit :=
  originalRedirect <- get_redirect res ;;
  set_redirect res (RedirectWrapper req originalRedirect) ;;;
  next.

(** The handlers of lines 19 to 25. *)
Definition question_1 (req res : loc) : M unit :=
  res_redirect res "/question-2" ;;; ret tt.

Definition question_2 (req res : loc) : M unit :=
  res_redirect res "/question-1" ;;; ret tt.

(** The sub-router as the module assembles it: its layers in the
    order of registration. *)
Inductive verb : Type := GET | POST.

Inductive layer : Type :=
| Use (mw : loc -> loc -> M unit -> M unit)
| Post (path : string) (handler : loc -> loc -> M unit).

Definition subRouter : list layer :=
  [ Use middleware;
    Post "/question-1" question_1;
    Post "/question-2" question_2 ].

Definition is_post (v : verb) : bool :=
  match v with POST => true | GET => false end.

(** Modelled from the spec: the router that [setupRouter()] returns is
    the host framework's and is not under [src/].  Its contract, as
    sections 4.1, 4.2 and 6 of the spec use it: layers run in the order
    of registration; a [use] layer runs for every request routed
    through the sub-router and continues through [next]; a [post] layer
    runs for a POST whose path matches the layer's path, and the chain
    ends there because the handlers do not call [next].  [path] is the
    path name of the request below the mount point, without the query
    string.  A path matches a layer the way the host router matches a
    literal route by default, see [route_matches]. *)
Fixpoint dispatch (layers : list layer) (v : verb) (path : string)
    (req res : loc) : M unit :=
  match layers with
  | [] => ret tt
  | Use mw :: rest => mw req res (dispatch rest v path req res)
  | Post p handler :: rest =>
      if is_post v && route_matches p path
      then handler req res
      else dispatch rest v path req res
  end.

(** The destination the closure computes from the prefix and the
    target. *)
Definition destination (p t : string) : string :=
  if startsWith t "/" then p +:+ t else t.

(** The state right after the middleware has run on [(req, res)] and
    handed over to the rest of the chain. *)
Definition installed (req res : loc) (s : state) : state :=
  (middleware req res (ret tt) s).2.

(** ** Equations of the primitive operations *)

Lemma host_call_calls this url s :
  calls (host_call this url s).2 = calls s ++ [(this, url)].
Proof. unfold host_call. destruct (host_redirect _ _ _); reflexivity. Qed.

(** The closure on a path-absolute target: one read of [req.baseUrl],
    then the captured function on the concatenation. *)
Lemma call_wrapper_absolute req f this url s rq :
  requests (store s) !! req = Some rq ->
  startsWith url "/" = true ->
  call (RedirectWrapper req f) this url s
  = call f this (baseUrl rq +:+ url) s.
Proof.
  intros Hreq Hpre. cbn [call]. rewrite Hpre.
  unfold bind at 1. unfold bind at 1. unfold get_baseUrl.
  rewrite Hreq. reflexivity.
Qed.

(** The closure on any other target: the captured function on the
    same string, and [req] is not read at all. *)
Lemma call_wrapper_other req f this url s :
  startsWith url "/" = false ->
  call (RedirectWrapper req f) this url s = call f this url s.
Proof. intros Hpre. cbn [call]. rewrite Hpre. reflexivity. Qed.

Lemma call_wrapper_dangling req f this url s :
  requests (store s) !! req = None ->
  startsWith url "/" = true ->
  call (RedirectWrapper req f) this url s = (Stuck, s).
Proof.
  intros Hreq Hpre. cbn [call]. rewrite Hpre.
  unfold bind at 1. unfold bind at 1. unfold get_baseUrl.
  rewrite Hreq. reflexivity.
Qed.

Lemma call_wrapper_destination req f this url s rq :
  requests (store s) !! req = Some rq ->
  call (RedirectWrapper req f) this url s
  = call f this (destination (baseUrl rq) url) s.
Proof.
  intros Hreq. unfold destination.
  destruct (startsWith url "/") eqn:Hpre.
  - by apply call_wrapper_absolute.
  - by apply call_wrapper_other.
Qed.

(** What the middleware leaves behind. *)
Definition with_redirect (res : loc) (f : fn) (rs : response) (s : state)
    : state :=
  {| store :=
       {| requests := requests (store s);
          responses :=
            <[res := {| redirect := f; res_props := res_props rs |}]>
              (responses (store s));
          framework := framework (store s) |};
     calls := calls s |}.

Lemma middleware_run req res next s rs :
  responses (store s) !! res = Some rs ->
  middleware req res next s
  = next (with_redirect res (RedirectWrapper req (redirect rs)) rs s).
Proof.
  intros Hres. unfold middleware, bind, get_redirect, set_redirect.
  rewrite Hres. cbn beta iota. rewrite Hres. reflexivity.
Qed.

Lemma installed_eq req res s rs :
  responses (store s) !! res = Some rs ->
  installed req res s
  = with_redirect res (RedirectWrapper req (redirect rs)) rs s.
Proof. intros Hres. unfold installed. by rewrite (middleware_run _ _ _ _ rs). Qed.

Lemma with_redirect_lookup res f rs s :
  responses (store (with_redirect res f rs s)) !! res
  = Some {| redirect := f; res_props := res_props rs |}.
Proof. cbn. apply lookup_insert_eq. Qed.

Lemma res_redirect_run res url s rs :
  responses (store s) !! res = Some rs ->
  res_redirect res url s = call (redirect rs) res url s.
Proof.
  intros Hres. unfold res_redirect, bind, get_redirect. by rewrite Hres.
Qed.

(** A redirect issued after the middleware ran once over a response
    whose [redirect] was [f]. *)
Lemma res_redirect_installed req res url s rq rs :
  requests (store s) !! req = Some rq ->
  responses (store s) !! res = Some rs ->
  res_redirect res url (installed req res s)
  = call (redirect rs) res (destination (baseUrl rq) url)
      (installed req res s).
Proof.
  intros Hreq Hres. rewrite (installed_eq _ _ _ rs) by done.
  erewrite res_redirect_run by apply with_redirect_lookup.
  cbn [redirect]. by apply call_wrapper_destination.
Qed.

Lemma installed_calls req res s rs :
  responses (store s) !! res = Some rs ->
  calls (installed req res s) = calls s.
Proof. intros Hres. by rewrite (installed_eq _ _ _ rs). Qed.

Lemma installed_requests req res s rs :
  responses (store s) !! res = Some rs ->
  requests (store (installed req res s)) = requests (store s).
Proof. intros Hres. by rewrite (installed_eq _ _ _ rs). Qed.

Lemma installed_lookup req res s rs :
  responses (store s) !! res = Some rs ->
  responses (store (installed req res s)) !! res
  = Some {| redirect := RedirectWrapper req (redirect rs);
            res_props := res_props rs |}.
Proof.
  intros Hres. rewrite (installed_eq _ _ _ rs) by done.
  apply with_redirect_lookup.
Qed.

(** The middleware run twice in a row on the same pair, as two
    consecutive [use] layers would. *)
Definition installed_twice (req res : loc) (s : state) : state :=
  (middleware req res (middleware req res (ret tt)) s).2.

Lemma installed_twice_eq req res s rs :
  responses (store s) !! res = Some rs ->
  installed_twice req res s = installed req res (installed req res s).
Proof.
  intros Hres. unfold installed_twice.
  rewrite (middleware_run _ _ _ _ rs) by done.
  by rewrite <- (installed_eq _ _ _ rs).
Qed.

(** Discarding a result keeps the state, whatever the completion. *)
Lemma discard_state {A} (m : M A) s : ((m ;;; ret tt) s).2 = (m s).2.
Proof. unfold bind. by destruct (m s) as [[a|e|] s']. Qed.

(** A redirect through [n] nested closures over the primitive reaches
    the primitive once, or not at all when a reference is dangling. *)
Lemma call_reaches_host_at_most_once f this url s :
  calls (call f this url s).2 = calls s
  \/ exists u, calls (call f this url s).2 = calls s ++ [(this, u)].
Proof.
  revert url. induction f as [|req f IH]; intros url.
  - right. exists url. apply host_call_calls.
  - destruct (requests (store s) !! req) as [rq|] eqn:Hreq.
    + rewrite (call_wrapper_destination _ _ _ _ _ rq) by done. apply IH.
    + destruct (startsWith url "/") eqn:Hpre.
      * left. by rewrite call_wrapper_dangling.
      * rewrite call_wrapper_other by done. apply IH.
Qed.

(** The two routes of the sub-router select their handlers behind the
    middleware. *)
Lemma dispatch_question_1 req res s :
  dispatch subRouter POST "/question-1" req res s
  = middleware req res (question_1 req res) s.
Proof. reflexivity. Qed.

Lemma dispatch_question_2 req res s :
  dispatch subRouter POST "/question-2" req res s
  = middleware req res (question_2 req res) s.
Proof. reflexivity. Qed.

(** A redirect issued after the middleware ran once: the closure runs
    with receiver [res] over whatever [res.redirect] held before. *)
Lemma res_redirect_installed_closure req res url s rs :
  responses (store s) !! res = Some rs ->
  res_redirect res url (installed req res s)
  = call (RedirectWrapper req (redirect rs)) res url (installed req res s).
Proof.
  intros Hres.
  by rewrite (res_redirect_run _ _ _ _ (installed_lookup req _ _ _ Hres)).
Qed.

(** The same over the host primitive: one logged call. *)
Lemma res_redirect_installed_host req res url s rq rs :
  requests (store s) !! req = Some rq ->
  responses (store s) !! res = Some rs ->
  redirect rs = HostRedirect ->
  res_redirect res url (installed req res s)
  = host_call res (destination (baseUrl rq) url) (installed req res s)
  /\ calls (res_redirect res url (installed req res s)).2
     = calls s ++ [(res, destination (baseUrl rq) url)].
Proof.
  intros Hreq Hres Hf.
  rewrite (res_redirect_installed _ _ _ _ rq rs), Hf by done. cbn [call].
  split; [done|]. by rewrite host_call_calls, (installed_calls _ _ _ rs).
Qed.

Lemma res_redirect_installed_host_other req res url s rs :
  responses (store s) !! res = Some rs ->
  redirect rs = HostRedirect ->
  startsWith url "/" = false ->
  res_redirect res url (installed req res s)
  = host_call res url (installed req res s)
  /\ calls (res_redirect res url (installed req res s)).2
     = calls s ++ [(res, url)].
Proof.
  intros Hres Hf Hpre.
  rewrite (res_redirect_installed_closure _ _ _ _ rs), Hf by done.
  rewrite call_wrapper_other by done. cbn [call].
  split; [done|]. by rewrite host_call_calls, (installed_calls _ _ _ rs).
Qed.

Lemma destination_absolute p t :
  startsWith t "/" = true -> destination p t = p +:+ t.
Proof. unfold destination. by intros ->. Qed.

Lemma destination_other p t :
  startsWith t "/" = false -> destination p t = t.
Proof. unfold destination. by intros ->. Qed.

(** ** The rewriter *)

(** C1: after the middleware ran on a response carrying the host
    primitive, a redirect to a target that begins with a slash is
    exactly one call of the primitive, with receiver [res] and target
    the mount prefix followed by the target. *)
Theorem wrapped_redirect_prefixes_path_absolute req res t s rq rs :
  requests (store s) !! req = Some rq ->
  responses (store s) !! res = Some rs ->
  redirect rs = HostRedirect ->
  startsWith t "/" = true ->
  res_redirect res t (installed req res s)
  = host_call res (baseUrl rq +:+ t) (installed req res s)
  /\ calls (res_redirect res t (installed req res s)).2
     = calls s ++ [(res, baseUrl rq +:+ t)].
Proof.
  intros Hreq Hres Hf Hpre.
  rewrite <- (destination_absolute (baseUrl rq) t Hpre).
  by apply (res_redirect_installed_host _ _ _ _ rq rs).
Qed.

(** C2: a target that does not begin with a slash (a full URL, the
    empty string) reaches the primitive as it is, whatever the mount
    prefix; the request is not even read. *)
Theorem wrapped_redirect_passes_other_targets req res t s rs :
  responses (store s) !! res = Some rs ->
  redirect rs = HostRedirect ->
  startsWith t "/" = false ->
  res_redirect res t (installed req res s)
  = host_call res t (installed req res s)
  /\ calls (res_redirect res t (installed req res s)).2
     = calls s ++ [(res, t)].
Proof. apply res_redirect_installed_host_other. Qed.

(** C3, as the code has it: after the middleware ran twice on the same
    pair, a redirect to a path-absolute target goes through two
    closures.  The outer one prefixes; the inner one tests the already
    prefixed string and prefixes again whenever that string begins
    with a slash.  So the primitive receives prefix + prefix + target
    for every prefix that begins with a slash, and prefix + target
    only for a non-empty prefix that does not. *)
Theorem double_installation_prefixes_twice req res t s rq rs :
  requests (store s) !! req = Some rq ->
  responses (store s) !! res = Some rs ->
  redirect rs = HostRedirect ->
  startsWith t "/" = true ->
  calls (res_redirect res t (installed_twice req res s)).2
  = calls s ++
      [(res, if startsWith (baseUrl rq +:+ t) "/"
             then baseUrl rq +:+ (baseUrl rq +:+ t)
             else baseUrl rq +:+ t)]
  /\ (startsWith (baseUrl rq) "/" = true ->
      calls (res_redirect res t (installed_twice req res s)).2
      = calls s ++ [(res, baseUrl rq +:+ (baseUrl rq +:+ t))]).
Proof.
  intros Hreq Hres Hf Hpre.
  assert (Hcalls :
    calls (res_redirect res t (installed_twice req res s)).2
    = calls s ++ [(res, destination (baseUrl rq) (baseUrl rq +:+ t))]).
  { rewrite (installed_twice_eq _ _ _ rs) by done.
    pose proof (installed_lookup req _ _ _ Hres) as Hres1.
    pose proof (installed_requests req _ _ _ Hres) as Hreq1.
    rewrite (res_redirect_installed _ _ _ _ rq _)
      by (done || by rewrite Hreq1).
    cbn [redirect]. rewrite (destination_absolute _ _ Hpre).
    rewrite (call_wrapper_destination _ _ _ _ _ rq).
    - rewrite Hf. cbn [call]. rewrite host_call_calls.
      by rewrite (installed_calls _ _ _ _ Hres1), (installed_calls _ _ _ rs).
    - rewrite (installed_requests _ _ _ _ Hres1). by rewrite Hreq1. }
  split; [exact Hcalls|].
  intros Hp. rewrite Hcalls.
  by rewrite destination_absolute by by apply startsWith_append.
Qed.

(** C4: with the empty mount prefix the primitive receives
    [/question-2] for the target [/question-2], and more generally
    every path-absolute target as it is. *)
Theorem empty_prefix_is_identity req res s rq rs :
  requests (store s) !! req = Some rq ->
  responses (store s) !! res = Some rs ->
  redirect rs = HostRedirect ->
  baseUrl rq = "" ->
  calls (res_redirect res "/question-2" (installed req res s)).2
  = calls s ++ [(res, "/question-2")]
  /\ forall t, startsWith t "/" = true ->
       calls (res_redirect res t (installed req res s)).2
       = calls s ++ [(res, t)].
Proof.
  intros Hreq Hres Hf Hp.
  assert (Hall : forall t, startsWith t "/" = true ->
    calls (res_redirect res t (installed req res s)).2
    = calls s ++ [(res, t)]).
  { intros t Hpre.
    destruct (res_redirect_installed_host req res t s rq rs Hreq Hres Hf)
      as [_ ->].
    by rewrite (destination_absolute _ _ Hpre), Hp. }
  split; [by apply Hall | exact Hall].
Qed.

(** C5: a POST that the sub-router routes to the [/question-1]
    handler ends in one call of the primitive with the mount prefix
    followed by [/question-2]; the [/question-2] handler likewise
    with [/question-1]. *)
Theorem post_handlers_redirect_under_mount req res s rq rs :
  requests (store s) !! req = Some rq ->
  responses (store s) !! res = Some rs ->
  redirect rs = HostRedirect ->
  calls (dispatch subRouter POST "/question-1" req res s).2
  = calls s ++ [(res, baseUrl rq +:+ "/question-2")]
  /\ calls (dispatch subRouter POST "/question-2" req res s).2
     = calls s ++ [(res, baseUrl rq +:+ "/question-1")].
Proof.
  intros Hreq Hres Hf.
  rewrite dispatch_question_1, dispatch_question_2.
  rewrite !(middleware_run _ _ _ _ rs) by done.
  rewrite <- (installed_eq _ _ _ rs) by done.
  unfold question_1, question_2. rewrite !discard_state.
  split.
  - by destruct
      (res_redirect_installed_host req res "/question-2" s rq rs) as [_ ->].
  - by destruct
      (res_redirect_installed_host req res "/question-1" s rq rs) as [_ ->].
Qed.

(** C6: for every target the closure behaves as one call of the
    function it captured, with the same receiver and the computed
    destination: same completion (so the same returned value), same
    final state.  Over the host primitive that is one logged call. *)
Theorem wrapper_is_one_call_of_original req f this url s rq :
  requests (store s) !! req = Some rq ->
  call (RedirectWrapper req f) this url s
  = call f this (destination (baseUrl rq) url) s
  /\ calls (call (RedirectWrapper req HostRedirect) this url s).2
     = calls s ++ [(this, destination (baseUrl rq) url)].
Proof.
  intros Hreq. split; [by apply call_wrapper_destination|].
  rewrite (call_wrapper_destination _ _ _ _ _ rq) by done.
  apply host_call_calls.
Qed.

(** C7: the middleware writes one property of one object.  It hands
    to [next] a state in which [res.redirect] is the new closure, the
    other properties of [res] are as before, every other response is
    as before, and the requests, the framework state and the log are
    as before. *)
Theorem middleware_only_replaces_redirect req res s rs :
  responses (store s) !! res = Some rs ->
  exists s1,
    (forall next, middleware req res next s = next s1)
    /\ responses (store s1) !! res
       = Some {| redirect := RedirectWrapper req (redirect rs);
                 res_props := res_props rs |}
    /\ (forall res', res' <> res ->
          responses (store s1) !! res' = responses (store s) !! res')
    /\ requests (store s1) = requests (store s)
    /\ framework (store s1) = framework (store s)
    /\ calls s1 = calls s.
Proof.
  intros Hres.
  exists (with_redirect res (RedirectWrapper req (redirect rs)) rs s).
  split; [intros next; by apply middleware_run|].
  split; [apply with_redirect_lookup|].
  split; [|done].
  intros res' Hne. cbn. by rewrite lookup_insert_ne.
Qed.

(** What a function value hands to the host primitive when it is
    called with [url]: the closures rewrite in turn, outermost first,
    each with the prefix of the request it is closed over. *)
Fixpoint host_target (rqs : gmap loc request) (f : fn) (url : string)
    : option string :=
  match f with
  | HostRedirect => Some url
  | RedirectWrapper req g =>
      if startsWith url "/"
      then match rqs !! req with
           | Some rq => host_target rqs g (baseUrl rq +:+ url)
           | None => None
           end
      else host_target rqs g url
  end.

Lemma call_host_target f this url s u :
  host_target (requests (store s)) f url = Some u ->
  call f this url s = host_call this u s.
Proof.
  revert url. induction f as [|req f IH]; intros url Ht.
  - cbn in Ht. by injection Ht as ->.
  - cbn [host_target] in Ht. destruct (startsWith url "/") eqn:Hpre.
    + destruct (requests (store s) !! req) as [rq|] eqn:Hreq; [|done].
      rewrite (call_wrapper_absolute _ _ _ _ _ rq) by done. by apply IH.
    + rewrite call_wrapper_other by done. by apply IH.
Qed.

(** C8: the wrapped redirect completes exactly as the host primitive
    completes on the destination.  When the primitive throws, the same
    exception comes out, with the store the primitive left; when it
    returns, the same value comes out.  So the closure lets the
    primitive's exception through and, for every string target, adds
    none of its own. *)
Theorem wrapper_propagates_errors req res t s rq rs o h :
  requests (store s) !! req = Some rq ->
  responses (store s) !! res = Some rs ->
  redirect rs = HostRedirect ->
  host_redirect res (destination (baseUrl rq) t)
    (store (installed req res s)) = (o, h) ->
  res_redirect res t (installed req res s)
  = (o, {| store := h;
           calls := calls s ++ [(res, destination (baseUrl rq) t)] |})
  /\ (forall e,
        o = Thrown e
        <-> (res_redirect res t (installed req res s)).1 = Thrown e)
  /\ (forall r,
        o = Returned r
        <-> (res_redirect res t (installed req res s)).1 = Returned r).
Proof.
  intros Hreq Hres Hf Hrun.
  assert (Heq : res_redirect res t (installed req res s)
    = (o, {| store := h;
             calls := calls s ++ [(res, destination (baseUrl rq) t)] |})).
  { destruct (res_redirect_installed_host req res t s rq rs Hreq Hres Hf)
      as [-> _].
    unfold host_call. rewrite Hrun. by rewrite (installed_calls _ _ _ rs). }
  rewrite Heq. by repeat split.
Qed.

(** C9, as the code has it: the string the wrapped redirect passes to
    the function it replaced is [destination] of the mount prefix and
    the handler's target, in any two states and on any two
    request/response pairs.  What reaches the host primitive is what
    the replaced function makes of that string: the string itself when
    the middleware ran over the primitive, and the result of the
    closures already on the response otherwise. *)
Theorem passed_target_depends_on_prefix_and_target
    req1 res1 s1 rq1 rs1 u1 req2 res2 s2 rq2 rs2 u2 t :
  requests (store s1) !! req1 = Some rq1 ->
  responses (store s1) !! res1 = Some rs1 ->
  requests (store s2) !! req2 = Some rq2 ->
  responses (store s2) !! res2 = Some rs2 ->
  baseUrl rq1 = baseUrl rq2 ->
  host_target (requests (store s1)) (redirect rs1)
    (destination (baseUrl rq1) t) = Some u1 ->
  host_target (requests (store s2)) (redirect rs2)
    (destination (baseUrl rq1) t) = Some u2 ->
  (res_redirect res1 t (installed req1 res1 s1)
   = call (redirect rs1) res1 (destination (baseUrl rq1) t)
       (installed req1 res1 s1)
   /\ res_redirect res2 t (installed req2 res2 s2)
      = call (redirect rs2) res2 (destination (baseUrl rq1) t)
          (installed req2 res2 s2))
  /\ (calls (res_redirect res1 t (installed req1 res1 s1)).2
      = calls s1 ++ [(res1, u1)]
      /\ calls (res_redirect res2 t (installed req2 res2 s2)).2
         = calls s2 ++ [(res2, u2)])
  /\ (redirect rs1 = HostRedirect -> redirect rs2 = HostRedirect ->
      u1 = destination (baseUrl rq1) t /\ u2 = u1).
Proof.
  intros Hreq1 Hres1 Hreq2 Hres2 Hp Hu1 Hu2.
  pose proof (res_redirect_installed req1 res1 t s1 rq1 rs1 Hreq1 Hres1)
    as Hrun1.
  pose proof (res_redirect_installed req2 res2 t s2 rq2 rs2 Hreq2 Hres2)
    as Hrun2.
  rewrite <- Hp in Hrun2.
  split; [by split|]. split.
  - rewrite Hrun1, Hrun2.
    rewrite (call_host_target _ _ _ _ u1)
      by by rewrite (installed_requests _ _ _ rs1).
    rewrite (call_host_target _ _ _ _ u2)
      by by rewrite (installed_requests _ _ _ rs2).
    rewrite !host_call_calls.
    by rewrite (installed_calls _ _ _ rs1), (installed_calls _ _ _ rs2).
  - intros Hf1 Hf2. rewrite Hf1 in Hu1. rewrite Hf2 in Hu2.
    cbn in Hu1, Hu2. split; congruence.
Qed.

(** C10: a target that begins with two slashes passes the
    one-character test and is prefixed like any path-absolute
    target. *)
Theorem protocol_relative_target_is_prefixed req res r s rq rs :
  requests (store s) !! req = Some rq ->
  responses (store s) !! res = Some rs ->
  redirect rs = HostRedirect ->
  startsWith ("//" +:+ r) "/" = true
  /\ calls (res_redirect res ("//" +:+ r) (installed req res s)).2
     = calls s ++ [(res, baseUrl rq +:+ ("//" +:+ r))].
Proof.
  intros Hreq Hres Hf.
  assert (Hpre : startsWith ("//" +:+ r) "/" = true)
    by by apply startsWith_slash_cons.
  split; [exact Hpre|].
  destruct (res_redirect_installed_host req res ("//" +:+ r) s rq rs
              Hreq Hres Hf) as [_ ->].
  by rewrite (destination_absolute _ _ Hpre).
Qed.

(** ** Beyond one installation *)

(** The middleware run [n] times in a row on the same pair, as [n]
    consecutive [use] layers would. *)
Fixpoint install_n (n : nat) (req res : loc) (next : M unit) : M unit :=
  match n with
  | O => next
  | S n' => middleware req res (install_n n' req res next)
  end.

(** [n] closures over [f], all closed over the same request. *)
Fixpoint wrap_n (n : nat) (req : loc) (f : fn) : fn :=
  match n with
  | O => f
  | S n' => RedirectWrapper req (wrap_n n' req f)
  end.

(** The prefix put in front [n] times, outermost closure first. *)
Fixpoint prefix_n (n : nat) (p t : string) : string :=
  match n with
  | O => t
  | S n' => prefix_n n' p (p +:+ t)
  end.

(** The requests a function value is closed over, outermost first, and
    whether all of them name an object of the store. *)
Fixpoint live (rqs : gmap loc request) (f : fn) : bool :=
  match f with
  | HostRedirect => true
  | RedirectWrapper req g =>
      match rqs !! req with
      | Some _ => live rqs g
      | None => false
      end
  end.

(** A handler's completion: the value of [res.redirect(...)] is
    dropped, a throw is not caught. *)
Definition discard (o : outcome result) : outcome unit :=
  match o with
  | Returned _ => Returned tt
  | Thrown e => Thrown e
  | Stuck => Stuck
  end.

Lemma bind_discard (m : M result) s :
  (m ;;; ret tt) s = (discard (m s).1, (m s).2).
Proof. unfold bind. by destruct (m s) as [[r|e|] s']. Qed.

Lemma wrap_n_shift n req f :
  wrap_n n req (RedirectWrapper req f) = RedirectWrapper req (wrap_n n req f).
Proof. induction n as [|n IH]; [done|]. cbn [wrap_n]. by rewrite IH. Qed.

Lemma install_n_run n req res next s rs :
  responses (store s) !! res = Some rs ->
  exists s1,
    install_n n req res next s = next s1
    /\ responses (store s1) !! res
       = Some {| redirect := wrap_n n req (redirect rs);
                 res_props := res_props rs |}
    /\ requests (store s1) = requests (store s)
    /\ calls s1 = calls s.
Proof.
  revert s rs. induction n as [|n IH]; intros s rs Hres.
  - exists s. cbn [install_n wrap_n]. by destruct rs.
  - cbn [install_n]. rewrite (middleware_run _ _ _ _ rs) by done.
    destruct (IH _ _ (with_redirect_lookup res
                        (RedirectWrapper req (redirect rs)) rs s))
      as (s1 & Hrun & Hres1 & Hreq1 & Hcalls1).
    exists s1. cbn [redirect res_props] in Hres1.
    rewrite wrap_n_shift in Hres1. by cbn [wrap_n].
Qed.

Lemma call_wrap_n n req this t s rq :
  requests (store s) !! req = Some rq ->
  baseUrl rq = "" \/ startsWith (baseUrl rq) "/" = true ->
  startsWith t "/" = true ->
  call (wrap_n n req HostRedirect) this t s
  = host_call this (prefix_n n (baseUrl rq) t) s.
Proof.
  intros Hreq Hp. revert t. induction n as [|n IH]; intros t Hpre; [done|].
  cbn [wrap_n prefix_n]. rewrite (call_wrapper_absolute _ _ _ _ _ rq) by done.
  apply IH. destruct Hp as [-> | Hp]; [done | by apply startsWith_append].
Qed.

Lemma append_inj_r (p a b : string) : p +:+ a = p +:+ b -> a = b.
Proof.
  induction p as [|c p IH]; [done|].
  change (String c p +:+ a) with (String c (p +:+ a)).
  change (String c p +:+ b) with (String c (p +:+ b)).
  intros H. apply IH. by injection H.
Qed.

(** X1: a target that does not begin with a slash goes through any
    nesting of closures untouched, whatever requests they are closed
    over: the run is the primitive's run on that very string. *)
Theorem nested_closures_pass_other_targets f this t s :
  startsWith t "/" = false ->
  call f this t s = host_call this t s.
Proof.
  intros Hpre. induction f as [|req f IH]; [done|].
  by rewrite call_wrapper_other.
Qed.

(** X2: after the middleware ran [n] times on the same pair, with a
    mount prefix that is empty or begins with a slash, a redirect to a
    path-absolute target hands the primitive the target with the
    prefix in front [n] times, in one call. *)
Theorem repeated_installation_prefixes_n_times n req res t s rq rs :
  requests (store s) !! req = Some rq ->
  responses (store s) !! res = Some rs ->
  redirect rs = HostRedirect ->
  baseUrl rq = "" \/ startsWith (baseUrl rq) "/" = true ->
  startsWith t "/" = true ->
  calls (res_redirect res t (install_n n req res (ret tt) s).2).2
  = calls s ++ [(res, prefix_n n (baseUrl rq) t)].
Proof.
  intros Hreq Hres Hf Hp Hpre.
  destruct (install_n_run n req res (ret tt) s rs Hres)
    as (s1 & -> & Hres1 & Hreq1 & Hcalls1).
  cbn [ret snd]. rewrite (res_redirect_run _ _ _ _ Hres1). cbn [redirect].
  rewrite Hf, (call_wrap_n _ _ _ _ _ rq) by (done || by rewrite Hreq1).
  by rewrite host_call_calls, Hcalls1.
Qed.

(** X3: whatever the nesting of closures, as long as the requests they
    are closed over are in the store, a call is one run of the host
    primitive with the caller's receiver: same completion, same store,
    one more entry in the log. *)
Theorem nested_closures_reach_primitive_once f this url s :
  live (requests (store s)) f = true ->
  exists u,
    call f this url s = host_call this u s
    /\ calls (call f this url s).2 = calls s ++ [(this, u)].
Proof.
  revert url. induction f as [|req f IH]; intros url Hlive.
  - exists url. split; [done | apply host_call_calls].
  - cbn [live] in Hlive.
    destruct (requests (store s) !! req) as [rq|] eqn:Hreq; [|done].
    rewrite (call_wrapper_destination _ _ _ _ _ rq) by done.
    by apply IH.
Qed.


(** X5: what a POST to one of the two routes completes with.  The
    handler drops the value the primitive returns and does not catch
    what it throws; the final store is the one the primitive left. *)
Theorem post_completes_as_primitive req res s rq rs o1 h1 o2 h2 :
  requests (store s) !! req = Some rq ->
  responses (store s) !! res = Some rs ->
  redirect rs = HostRedirect ->
  host_redirect res (baseUrl rq +:+ "/question-2")
    (store (installed req res s)) = (o1, h1) ->
  host_redirect res (baseUrl rq +:+ "/question-1")
    (store (installed req res s)) = (o2, h2) ->
  dispatch subRouter POST "/question-1" req res s
  = (discard o1,
     {| store := h1;
        calls := calls s ++ [(res, baseUrl rq +:+ "/question-2")] |})
  /\ dispatch subRouter POST "/question-2" req res s
     = (discard o2,
        {| store := h2;
           calls := calls s ++ [(res, baseUrl rq +:+ "/question-1")] |}).
Proof.
  intros Hreq Hres Hf Hrun1 Hrun2.
  rewrite dispatch_question_1, dispatch_question_2.
  rewrite !(middleware_run _ _ _ _ rs) by done.
  rewrite <- (installed_eq _ _ _ rs) by done.
  unfold question_1, question_2. rewrite !bind_discard.
  destruct (res_redirect_installed_host req res "/question-2" s rq rs
              Hreq Hres Hf) as [-> _].
  destruct (res_redirect_installed_host req res "/question-1" s rq rs
              Hreq Hres Hf) as [-> _].
  rewrite !destination_absolute by done.
  unfold host_call. rewrite Hrun1, Hrun2.
  by rewrite (installed_calls _ _ _ rs).
Qed.

(** X6: under a mount prefix that is empty or begins with a slash, two
    different targets never end at the same destination. *)
Theorem destination_injective p t1 t2 :
  p = "" \/ startsWith p "/" = true ->
  destination p t1 = destination p t2 ->
  t1 = t2.
Proof.
  intros Hp. unfold destination.
  destruct (startsWith t1 "/") eqn:H1, (startsWith t2 "/") eqn:H2;
    intros Heq.
  - by apply (append_inj_r p).
  - exfalso. subst t2. destruct Hp as [-> | Hp].
    + change ("" +:+ t1) with t1 in H2. congruence.
    + rewrite (startsWith_append _ _ t1 Hp) in H2. discriminate H2.
  - exfalso. subst t1. destruct Hp as [-> | Hp].
    + change ("" +:+ t2) with t2 in H1. congruence.
    + rewrite (startsWith_append _ _ t2 Hp) in H1. discriminate H1.
  - done.
Qed.

(** X7: the closure reads [req.baseUrl] when it is called.  Once the
    middleware ran (in [s0]), a redirect issued in any later state [s1]
    in which the response is as the middleware left it is prefixed
    with the prefix the request carries in [s1]; what it carried in
    [s0] plays no part. *)
Theorem prefix_is_read_at_call_time req res t s0 rs0 s1 rq1 :
  responses (store s0) !! res = Some rs0 ->
  redirect rs0 = HostRedirect ->
  responses (store s1) !! res
  = responses (store (installed req res s0)) !! res ->
  requests (store s1) !! req = Some rq1 ->
  res_redirect res t s1 = host_call res (destination (baseUrl rq1) t) s1
  /\ calls (res_redirect res t s1).2
     = calls s1 ++ [(res, destination (baseUrl rq1) t)].
Proof.
  intros Hres0 Hf Hsame Hreq1.
  rewrite (installed_lookup req _ _ _ Hres0) in Hsame.
  rewrite (res_redirect_run _ _ _ _ Hsame). cbn [redirect].
  rewrite (call_wrapper_destination _ _ _ _ _ rq1), Hf by done.
  cbn [call]. split; [done | apply host_call_calls].
Qed.

End Routing.

Arguments Request {value} baseUrl req_props.
Arguments Response {value} redirect res_props.
Arguments Heap {value host} requests responses framework.
Arguments State {value host} store calls.
Arguments Returned {error A} a.
Arguments Thrown {error A} e.
Arguments Stuck {error A}.
Arguments baseUrl {value} r.
Arguments redirect {value} r.
Arguments res_props {value} r.
Arguments requests {value host} h.
Arguments responses {value host} h.
Arguments framework {value host} h.
Arguments store {value host} s.
Arguments calls {value host} s.
Arguments call {value host result error} host_redirect f this url s.
Arguments res_redirect {value host result error} host_redirect res url s.
Arguments middleware {value host error} req res next s.
Arguments installed {value host error} req res s.
Arguments installed_twice {value host error} req res s.
Arguments dispatch {value host error} layers v path req res s.
Arguments subRouter {value host result error} host_redirect.
Arguments ret {value host error A} a s.
Arguments install_n {value host error} n req res next s.
Arguments with_redirect {value host} res f rs s.
Arguments live {value} rqs f.

(** ** A sample host

    A small redirect primitive to run the module on: it throws once
    the response has been sent, and otherwise sends the response with
    the target as its [Location].  The framework state is the
    [Location] sent so far, if any. *)
Module Sample.

Local Open Scope positive_scope.
Local Open Scope list_scope.

Inductive sample_error : Type := HeadersSent.

Definition sample_heap : Type := heap string (option string).
Definition sample_state : Type := state string (option string).

Definition sample_redirect (this : loc) (url : string) (h : sample_heap)
    : outcome sample_error unit * sample_heap :=
  match framework h with
  | Some _ => (Thrown HeadersSent, h)
  | None =>
      (Returned tt,
       {| requests := requests h;
          responses := responses h;
          framework := Some url |})
  end.

(** One request (reference 1) mounted under [prefix], one response
    (reference 2) with the primitive in place, nothing sent yet. *)
Definition fresh (prefix : string) : sample_state :=
  {| store :=
       {| requests := {[ 1 := Request prefix ∅ ]};
          responses :=
            {[ 2 :=
                 Response HostRedirect {[ "statusCode" := "200" ]} ]};
          framework := None |};
     calls := [] |}.

(** The same after a response went out. *)
Definition sent (prefix : string) : sample_state :=
  {| store :=
       {| requests := {[ 1 := Request prefix ∅ ]};
          responses :=
            {[ 2 :=
                 Response HostRedirect {[ "statusCode" := "302" ]} ]};
          framework := Some "/v1/question-1" |};
     calls := [(2, "/v1/question-1")] |}.

(** A second pair (references 3 and 4) beside an unrelated one. *)
Definition busy (prefix : string) : sample_state :=
  {| store :=
       {| requests :=
            {[ 1 := Request "/v9" ∅;
               3 := Request prefix {[ "method" := "POST" ]} ]};
          responses :=
            {[ 2 := Response (RedirectWrapper 1 HostRedirect) ∅;
               4 := Response HostRedirect ∅ ]};
          framework := None |};
     calls := [(2, "/v9/question-2")] |}.

Definition run_redirect (res : loc) (t : string) (s : sample_state) :=
  res_redirect sample_redirect res t s.

Definition install (req res : loc) (s : sample_state) : sample_state :=
  installed (error := sample_error) req res s.

Definition install_twice (req res : loc) (s : sample_state) : sample_state :=
  installed_twice (error := sample_error) req res s.

Example scenario_1 :
  calls (dispatch (subRouter sample_redirect) POST "/question-1" 1 2
           (fresh "/v1")).2
  = [(2, "/v1/question-2")].
Proof. vm_compute. reflexivity. Qed.

Example scenario_2 :
  calls (dispatch (subRouter sample_redirect) POST "/question-2" 1 2
           (fresh "/v2")).2
  = [(2, "/v2/question-1")].
Proof. vm_compute. reflexivity. Qed.

Example scenario_3 :
  calls (run_redirect 2 "https://example.com/elsewhere"
           (install 1 2 (fresh "/v1"))).2
  = [(2, "https://example.com/elsewhere")].
Proof. vm_compute. reflexivity. Qed.

Example scenario_empty_target :
  calls (run_redirect 2 "" (install 1 2 (fresh "/v1"))).2 = [(2, "")].
Proof. vm_compute. reflexivity. Qed.

Example scenario_get_falls_through :
  calls (dispatch (subRouter sample_redirect) GET "/question-1" 1 2
           (fresh "/v1")).2
  = [].
Proof. vm_compute. reflexivity. Qed.

(** Twice the middleware, then the [/question-1] handler's redirect:
    the primitive is handed the prefix twice. *)
Example double_installation_run :
  run_redirect 2 "/question-2" (install_twice 1 2 (fresh "/v1"))
  = (Returned tt,
     {| store :=
          {| requests := {[ 1 := Request "/v1" ∅ ]};
             responses :=
               {[ 2 := Response
                         (RedirectWrapper 1
                            (RedirectWrapper 1 HostRedirect))
                         {[ "statusCode" := "200" ]} ]};
             framework := Some "/v1/v1/question-2" |};
        calls := [(2, "/v1/v1/question-2")] |}).
Proof. vm_compute. reflexivity. Qed.

(** C3 fails on the code: mount prefix [/v1], target [/question-2],
    the middleware run twice on the pair (1, 2).  The primitive is
    called with [/v1/v1/question-2], not with [/v1/question-2]. *)
Lemma double_installation_double_prefixes :
  calls (run_redirect 2 "/question-2" (install_twice 1 2 (fresh "/v1"))).2
  = [(2, "/v1/v1/question-2")]
  /\ calls (run_redirect 2 "/question-2"
              (install_twice 1 2 (fresh "/v1"))).2
     <> calls (fresh "/v1") ++ [(2, "/v1" +:+ "/question-2")].
Proof.
  split; [vm_compute; reflexivity|].
  vm_compute. intros H. discriminate H.
Qed.

(** The primitive throws once the response is out, and the closure
    lets the exception through. *)
Example throw_after_send :
  call sample_redirect (RedirectWrapper 1 HostRedirect) 2 "/question-2"
    (sent "/v1")
  = (Thrown HeadersSent,
     {| store := store (sent "/v1");
        calls := [(2, "/v1/question-1"); (2, "/v1/question-2")] |}).
Proof. vm_compute. reflexivity. Qed.

(** ** The theorems at concrete inputs *)

Lemma wrapped_redirect_prefixes_path_absolute_witness :
  run_redirect 2 "/question-2" (install 1 2 (fresh "/v1"))
  = host_call _ _ _ _ sample_redirect 2 "/v1/question-2"
      (install 1 2 (fresh "/v1"))
  /\ calls (run_redirect 2 "/question-2" (install 1 2 (fresh "/v1"))).2
     = [(2, "/v1/question-2")].
Proof.
  apply (wrapped_redirect_prefixes_path_absolute _ _ _ _ sample_redirect
           1 2 "/question-2" (fresh "/v1") (Request "/v1" ∅)
           (Response HostRedirect {[ "statusCode" := "200" ]}));
    reflexivity.
Defined.

Lemma wrapped_redirect_passes_other_targets_witness :
  run_redirect 2 "https://example.com/elsewhere"
    (install 1 2 (fresh "/v1"))
  = host_call _ _ _ _ sample_redirect 2 "https://example.com/elsewhere"
      (install 1 2 (fresh "/v1"))
  /\ calls (run_redirect 2 "https://example.com/elsewhere"
              (install 1 2 (fresh "/v1"))).2
     = [(2, "https://example.com/elsewhere")].
Proof.
  apply (wrapped_redirect_passes_other_targets _ _ _ _ sample_redirect
           1 2 "https://example.com/elsewhere" (fresh "/v1")
           (Response HostRedirect {[ "statusCode" := "200" ]}));
    reflexivity.
Defined.

Lemma double_installation_prefixes_twice_witness :
  calls (run_redirect 2 "/question-2" (install_twice 1 2 (fresh "/v1"))).2
  = [(2, "/v1/v1/question-2")]
  /\ (startsWith "/v1" "/" = true ->
      calls (run_redirect 2 "/question-2"
               (install_twice 1 2 (fresh "/v1"))).2
      = [(2, "/v1/v1/question-2")]).
Proof.
  apply (double_installation_prefixes_twice _ _ _ _ sample_redirect
           1 2 "/question-2" (fresh "/v1") (Request "/v1" ∅)
           (Response HostRedirect {[ "statusCode" := "200" ]}));
    reflexivity.
Defined.

Lemma empty_prefix_is_identity_witness :
  calls (run_redirect 2 "/question-2" (install 1 2 (fresh ""))).2
  = [(2, "/question-2")]
  /\ forall t, startsWith t "/" = true ->
       calls (run_redirect 2 t (install 1 2 (fresh ""))).2 = [(2, t)].
Proof.
  apply (empty_prefix_is_identity _ _ _ _ sample_redirect
           1 2 (fresh "") (Request "" ∅)
           (Response HostRedirect {[ "statusCode" := "200" ]}));
    reflexivity.
Defined.

Lemma post_handlers_redirect_under_mount_witness :
  calls (dispatch (subRouter sample_redirect) POST "/question-1" 1 2
           (fresh "/v1")).2
  = [(2, "/v1/question-2")]
  /\ calls (dispatch (subRouter sample_redirect) POST "/question-2" 1 2
              (fresh "/v1")).2
     = [(2, "/v1/question-1")].
Proof.
  apply (post_handlers_redirect_under_mount _ _ _ _ sample_redirect
           1 2 (fresh "/v1") (Request "/v1" ∅)
           (Response HostRedirect {[ "statusCode" := "200" ]}));
    reflexivity.
Defined.

Lemma wrapper_is_one_call_of_original_witness :
  call sample_redirect (RedirectWrapper 3 (RedirectWrapper 1 HostRedirect))
    4 "/question-2" (busy "/v1")
  = call sample_redirect (RedirectWrapper 1 HostRedirect)
      4 "/v1/question-2" (busy "/v1")
  /\ calls (call sample_redirect (RedirectWrapper 3 HostRedirect)
              4 "/question-2" (busy "/v1")).2
     = [(2, "/v9/question-2"); (4, "/v1/question-2")].
Proof.
  apply (wrapper_is_one_call_of_original _ _ _ _ sample_redirect
           3 (RedirectWrapper 1 HostRedirect) 4 "/question-2" (busy "/v1")
           (Request "/v1" {[ "method" := "POST" ]}));
    reflexivity.
Defined.

Lemma middleware_only_replaces_redirect_witness :
  exists s1 : sample_state,
    (forall next, middleware (error := sample_error) 3 4 next (busy "/v1")
                  = next s1)
    /\ responses (store s1) !! 4
       = Some (Response (RedirectWrapper 3 HostRedirect) ∅)
    /\ (forall res', res' <> 4 ->
          responses (store s1) !! res'
          = responses (store (busy "/v1")) !! res')
    /\ requests (store s1) = requests (store (busy "/v1"))
    /\ framework (store s1) = framework (store (busy "/v1"))
    /\ calls s1 = calls (busy "/v1").
Proof.
  apply (middleware_only_replaces_redirect _ _ sample_error
           3 4 (busy "/v1") (Response HostRedirect ∅));
    reflexivity.
Defined.

Lemma wrapper_propagates_errors_witness :
  run_redirect 2 "/question-2" (install 1 2 (sent "/v1"))
  = (Thrown HeadersSent,
     {| store := store (install 1 2 (sent "/v1"));
        calls := [(2, "/v1/question-1"); (2, "/v1/question-2")] |})
  /\ (forall e,
        (Thrown HeadersSent : outcome sample_error unit) = Thrown e
        <-> (run_redirect 2 "/question-2" (install 1 2 (sent "/v1"))).1
            = Thrown e)
  /\ (forall r,
        (Thrown HeadersSent : outcome sample_error unit) = Returned r
        <-> (run_redirect 2 "/question-2" (install 1 2 (sent "/v1"))).1
            = Returned r).
Proof.
  apply (wrapper_propagates_errors _ _ _ _ sample_redirect
           1 2 "/question-2" (sent "/v1") (Request "/v1" ∅)
           (Response HostRedirect {[ "statusCode" := "302" ]})
           (Thrown HeadersSent) (store (install 1 2 (sent "/v1"))));
    reflexivity.
Defined.

(** The primitive returns: the wrapped redirect returns the same value
    and leaves the store the primitive left. *)
Example return_comes_through :
  run_redirect 2 "/question-2" (install 1 2 (fresh "/v1"))
  = (Returned tt,
     {| store :=
          {| requests := {[ 1 := Request "/v1" ∅ ]};
             responses :=
               {[ 2 := Response (RedirectWrapper 1 HostRedirect)
                         {[ "statusCode" := "200" ]} ]};
             framework := Some "/v1/question-2" |};
        calls := [(2, "/v1/question-2")] |}).
Proof. vm_compute. reflexivity. Qed.

(** C9 fails on the code: the same prefix [/v1] and the same target
    [/question-2], once on a response that carried the primitive and
    once on a response that already carried a closure.  The primitive
    is handed [/v1/question-2] in the first run and
    [/v1/v1/question-2] in the second. *)
Lemma same_inputs_different_host_targets :
  calls (run_redirect 2 "/question-2" (install 1 2 (fresh "/v1"))).2
  = [(2, "/v1/question-2")]
  /\ calls (run_redirect 2 "/question-2"
              (install 1 2 (install 1 2 (fresh "/v1")))).2
     = [(2, "/v1/v1/question-2")]
  /\ calls (run_redirect 2 "/question-2" (install 1 2 (fresh "/v1"))).2
     <> calls (run_redirect 2 "/question-2"
                 (install 1 2 (install 1 2 (fresh "/v1")))).2.
Proof.
  split; [vm_compute; reflexivity|].
  split; [vm_compute; reflexivity|].
  vm_compute. intros H. discriminate H.
Qed.

Lemma passed_target_depends_on_prefix_and_target_witness :
  (run_redirect 2 "/question-2" (install 1 2 (fresh "/v1"))
   = call sample_redirect HostRedirect 2 "/v1/question-2"
       (install 1 2 (fresh "/v1"))
   /\ run_redirect 2 "/question-2" (install 3 2 (busy "/v1"))
      = call sample_redirect (RedirectWrapper 1 HostRedirect) 2
          "/v1/question-2" (install 3 2 (busy "/v1")))
  /\ (calls (run_redirect 2 "/question-2" (install 1 2 (fresh "/v1"))).2
      = [(2, "/v1/question-2")]
      /\ calls (run_redirect 2 "/question-2"
                  (install 3 2 (busy "/v1"))).2
         = [(2, "/v9/question-2"); (2, "/v9/v1/question-2")])
  /\ (HostRedirect = HostRedirect ->
      RedirectWrapper 1 HostRedirect = HostRedirect ->
      "/v1/question-2" = "/v1/question-2"
      /\ "/v9/v1/question-2" = "/v1/question-2").
Proof.
  apply (passed_target_depends_on_prefix_and_target _ _ _ _ sample_redirect
           1 2 (fresh "/v1") (Request "/v1" ∅)
           (Response HostRedirect {[ "statusCode" := "200" ]})
           "/v1/question-2"
           3 2 (busy "/v1") (Request "/v1" {[ "method" := "POST" ]})
           (Response (RedirectWrapper 1 HostRedirect) ∅)
           "/v9/v1/question-2" "/question-2");
    reflexivity.
Defined.

Lemma protocol_relative_target_is_prefixed_witness :
  startsWith "//example.com/x" "/" = true
  /\ calls (run_redirect 2 "//example.com/x"
              (install 1 2 (fresh "/v1"))).2
     = [(2, "/v1//example.com/x")].
Proof.
  apply (protocol_relative_target_is_prefixed _ _ _ _ sample_redirect
           1 2 "example.com/x" (fresh "/v1") (Request "/v1" ∅)
           (Response HostRedirect {[ "statusCode" := "200" ]}));
    reflexivity.
Defined.

(** ** More runs on the sample host *)

(** The pair (1, 2) after the middleware ran under [/v1] and the
    request moved on to a router nested under [/v1/admin]. *)
Definition remounted : sample_state :=
  {| store :=
       {| requests := {[ 1 := Request "/v1/admin" ∅ ]};
          responses := responses (store (install 1 2 (fresh "/v1")));
          framework := None |};
     calls := [] |}.

Example three_installations :
  run_redirect 2 "/question-2"
    (install_n (error := sample_error) 3 1 2 (ret tt) (fresh "/v1")).2
  = (Returned tt,
     {| store :=
          {| requests := {[ 1 := Request "/v1" ∅ ]};
             responses :=
               {[ 2 := Response (wrap_n 3 1 HostRedirect)
                         {[ "statusCode" := "200" ]} ]};
             framework := Some "/v1/v1/v1/question-2" |};
        calls := [(2, "/v1/v1/v1/question-2")] |}).
Proof. vm_compute. reflexivity. Qed.

(** Closures over two different requests: each puts its own prefix in
    front, the outer one first. *)
Example two_requests_two_prefixes :
  calls (call sample_redirect
           (RedirectWrapper 3 (RedirectWrapper 1 HostRedirect))
           4 "/question-2" (busy "/v1")).2
  = [(2, "/v9/question-2"); (4, "/v9/v1/question-2")].
Proof. vm_compute. reflexivity. Qed.

(** A prefix that neither is empty nor begins with a slash can make
    two targets meet. *)
Example destinations_can_meet :
  destination "x" "/y" = destination "x" "x/y" /\ "/y" <> "x/y".
Proof. split; [reflexivity | discriminate]. Qed.

(** The host router's matching: case and one trailing slash do not
    keep a POST from its handler; a second slash or another name
    does. *)
Example post_upper_case_path :
  calls (dispatch (subRouter sample_redirect) POST "/QUESTION-1" 1 2
           (fresh "/v1")).2
  = [(2, "/v1/question-2")].
Proof. vm_compute. reflexivity. Qed.

Example post_trailing_slash :
  calls (dispatch (subRouter sample_redirect) POST "/question-2/" 1 2
           (fresh "/v1")).2
  = [(2, "/v1/question-1")].
Proof. vm_compute. reflexivity. Qed.

Example post_two_trailing_slashes :
  calls (dispatch (subRouter sample_redirect) POST "/question-1//" 1 2
           (fresh "/v1")).2
  = [].
Proof. vm_compute. reflexivity. Qed.

Example post_to_unknown_path :
  dispatch (subRouter sample_redirect) POST "/question-3" 1 2 (fresh "/v1")
  = (Returned tt, install 1 2 (fresh "/v1")).
Proof. vm_compute. reflexivity. Qed.

Lemma nested_closures_pass_other_targets_witness :
  call sample_redirect (RedirectWrapper 7 (RedirectWrapper 1 HostRedirect))
    4 "https://example.com/elsewhere" (busy "/v1")
  = host_call _ _ _ _ sample_redirect 4 "https://example.com/elsewhere"
      (busy "/v1").
Proof.
  apply (nested_closures_pass_other_targets _ _ _ _ sample_redirect
           (RedirectWrapper 7 (RedirectWrapper 1 HostRedirect))
           4 "https://example.com/elsewhere" (busy "/v1")).
  reflexivity.
Defined.

Lemma repeated_installation_prefixes_n_times_witness :
  calls (run_redirect 2 "/question-2"
           (install_n (error := sample_error) 3 1 2 (ret tt)
              (fresh "/v1")).2).2
  = [(2, "/v1/v1/v1/question-2")].
Proof.
  apply (repeated_installation_prefixes_n_times _ _ _ _ sample_redirect
           3%nat 1 2 "/question-2" (fresh "/v1") (Request "/v1" ∅)
           (Response HostRedirect {[ "statusCode" := "200" ]}));
    try reflexivity.
  right. reflexivity.
Defined.

Lemma nested_closures_reach_primitive_once_witness :
  exists u,
    call sample_redirect
      (RedirectWrapper 3 (RedirectWrapper 1 HostRedirect))
      4 "/question-2" (busy "/v1")
    = host_call _ _ _ _ sample_redirect 4 u (busy "/v1")
    /\ calls (call sample_redirect
                (RedirectWrapper 3 (RedirectWrapper 1 HostRedirect))
                4 "/question-2" (busy "/v1")).2
       = calls (busy "/v1") ++ [(4, u)].
Proof.
  apply (nested_closures_reach_primitive_once _ _ _ _ sample_redirect
           (RedirectWrapper 3 (RedirectWrapper 1 HostRedirect))
           4 "/question-2" (busy "/v1")).
  reflexivity.
Defined.


Lemma post_completes_as_primitive_witness :
  dispatch (subRouter sample_redirect) POST "/question-1" 1 2 (sent "/v1")
  = (Thrown HeadersSent,
     {| store := store (install 1 2 (sent "/v1"));
        calls := [(2, "/v1/question-1"); (2, "/v1/question-2")] |})
  /\ dispatch (subRouter sample_redirect) POST "/question-2" 1 2 (sent "/v1")
     = (Thrown HeadersSent,
        {| store := store (install 1 2 (sent "/v1"));
           calls := [(2, "/v1/question-1"); (2, "/v1/question-1")] |}).
Proof.
  apply (post_completes_as_primitive _ _ _ _ sample_redirect
           1 2 (sent "/v1") (Request "/v1" ∅)
           (Response HostRedirect {[ "statusCode" := "302" ]})
           (Thrown HeadersSent) (store (install 1 2 (sent "/v1")))
           (Thrown HeadersSent) (store (install 1 2 (sent "/v1"))));
    reflexivity.
Defined.

Lemma destination_injective_witness : "/question-2" = "/question-2".
Proof.
  apply (destination_injective "/v1" "/question-2" "/question-2");
    [right; reflexivity | reflexivity].
Defined.

Lemma prefix_is_read_at_call_time_witness :
  run_redirect 2 "/question-2" remounted
  = host_call _ _ _ _ sample_redirect 2 "/v1/admin/question-2" remounted
  /\ calls (run_redirect 2 "/question-2" remounted).2
     = [(2, "/v1/admin/question-2")].
Proof.
  apply (prefix_is_read_at_call_time _ _ _ _ sample_redirect
           1 2 "/question-2" (fresh "/v1")
           (Response HostRedirect {[ "statusCode" := "200" ]})
           remounted (Request "/v1/admin" ∅));
    reflexivity.
Defined.

End Sample.
